(** * QuiverQuantCongresssUniverseAlgorithm

    A shallow embedding of [QuiverQuantCongressUniverseSelectionAlgorithm.py]
    and the properties of its three methods ([Initialize],
    [UniverseSelection], [OnSecuritiesChanged]).

    The algorithm class derives from the engine's [QCAlgorithm]; everything it
    does goes through that base class.  The engine is not part of the
    repository, so its API is an interface here ([QCAlgorithm]) and the
    algorithm is written once, against any implementation of it.  A recording
    implementation ([Recorder]) plays the part of a captured engine: it stores
    what the setters receive and appends every logged line to a list. *)

From Stdlib Require Import List String Bool ZArith QArith Sorted Lia.
From Stdlib Require Import Decimal DecimalString Permutation.
Import ListNotations.

Local Open Scope string_scope.
Local Open Scope list_scope.

(** ** Engine-side types *)

(** Modelled from the spec: the engine's [OrderDirection] enumeration, of which
    the source names only [OrderDirection.Buy]; the data model gives the
    transaction direction as "enumerated: buy/sell". *)
Inductive OrderDirection : Set :=
| Buy
| Sell.

Definition OrderDirection_eqb (a b : OrderDirection) : bool :=
  match a, b with
  | Buy, Buy | Sell, Sell => true
  | _, _ => false
  end.

(** The opaque engine types the script handles without looking inside, with
    the members the script names ([Resolution.Daily],
    [QuiverQuantCongressUniverse]) and the string conversions it triggers
    (the f-string fields and [changes.ToString()]). *)
Class EngineTypes : Type := {
  SymbolT : Type;
  SecurityChanges : Type;
  Resolution : Type;
  Resolution_Daily : Resolution;
  UniverseType : Type;
  QuiverQuantCongressUniverse : UniverseType;
  format_Symbol : SymbolT -> string;
  format_Amount : Q -> string;
  format_Direction : OrderDirection -> string;
  ToString : SecurityChanges -> string
}.

(** Modelled from the spec: the record the engine hands to the selection
    callback, "identifying symbol, representative name (string), transaction
    amount (numeric), transaction direction".  The source reads exactly these
    four attributes.  Amounts are rationals, which covers integer and decimal
    values alike. *)
Record UniverseDatum `{EngineTypes} : Type := {
  Symbol : SymbolT;
  Representative : string;
  Amount : Q;
  Transaction : OrderDirection
}.

(** A reference to a bound method of the algorithm, as passed to
    [AddUniverse]. *)
Inductive Callback : Set :=
| self_UniverseSelection.

(** The part of the [QCAlgorithm] base class the script calls, over an
    arbitrary engine state [St]. *)
Class QCAlgorithm `{EngineTypes} (St : Type) : Type := {
  set_UniverseSettings_Resolution : Resolution -> St -> St;
  SetStartDate : Z -> Z -> Z -> St -> St;
  SetEndDate : Z -> Z -> Z -> St -> St;
  SetCash : Z -> St -> St;
  AddUniverse : UniverseType -> string -> Resolution -> Callback -> St -> St;
  Log : string -> St -> St
}.

(** Python's [x > y] on numbers. *)
Definition Qgtb (x y : Q) : bool :=
  match (x ?= y)%Q with
  | Gt => true
  | _ => false
  end.

(** ** The algorithm *)

Section Algorithm.
Context `{EngineTypes} {St : Type} `{!QCAlgorithm St}.

Definition Initialize (self : St) : St :=
  let self := set_UniverseSettings_Resolution Resolution_Daily self in
  let self := SetStartDate 2022 2 14 self in
  let self := SetEndDate 2022 2 18 self in
  let self := SetCash 100000 self in
  AddUniverse QuiverQuantCongressUniverse "QuiverQuantCongresssUniverse"
              Resolution_Daily self_UniverseSelection self.

(** The f-string of the logging loop. *)
Definition log_line (datum : UniverseDatum) : string :=
  (format_Symbol (Symbol datum) ++ "," ++
   Representative datum ++ "," ++
   format_Amount (Amount datum) ++ "," ++
   format_Direction (Transaction datum))%string.

(** The condition of the comprehension; [and] is short-circuit, as [&&]. *)
Definition selection_criteria (d : UniverseDatum) : bool :=
  Qgtb (Amount d) (200000 # 1) && OrderDirection_eqb (Transaction d) Buy.

(** [for datum in data: self.Log(...)], then the list comprehension, which
    appends to a fresh list while it walks [data] a second time. *)
Definition UniverseSelection (data : list UniverseDatum) (self : St)
  : St * list SymbolT :=
  let self := fold_left (fun self datum => Log (log_line datum) self) data self in
  (self,
   fold_left (fun acc d => if selection_criteria d then acc ++ [Symbol d] else acc)
             data []).

Definition OnSecuritiesChanged (changes : SecurityChanges) (self : St) : St :=
  Log (ToString changes) self.

(** The engine drives the two callbacks in whatever order it likes. *)
Inductive Invocation : Type :=
| Call_UniverseSelection (data : list UniverseDatum)
| Call_OnSecuritiesChanged (changes : SecurityChanges).

Definition invoke (i : Invocation) (self : St) : St :=
  match i with
  | Call_UniverseSelection data => fst (UniverseSelection data self)
  | Call_OnSecuritiesChanged changes => OnSecuritiesChanged changes self
  end.

Definition run (calls : list Invocation) (self : St) : St :=
  fold_left (fun self i => invoke i self) calls self.
End Algorithm.

(** ** A recording engine *)

Record Date : Set := {
  year : Z;
  month : Z;
  day : Z
}.

(** What one [AddUniverse] call hands over. *)
Record UniverseRegistration `{EngineTypes} : Type := {
  universe_type : UniverseType;
  universe_name : string;
  universe_resolution : Resolution;
  universe_selector : Callback
}.

(** Modelled from the spec: the engine state behind [QCAlgorithm], absent from
    the repository.  The spec lists what the script reaches of it:
    "configuration setters (start date, end date, cash, universe resolution),
    universe registration (data source type, name, resolution, selection
    callback), and a logging sink".  Each setter stores its argument, a
    registration is appended to the registered universes, a logged line is
    appended to the captured log. *)
Record Recorder `{EngineTypes} : Type := {
  UniverseSettings_Resolution : Resolution;
  StartDate : Date;
  EndDate : Date;
  Cash : Z;
  Universes : list UniverseRegistration;
  LogLines : list string
}.

#[export] Instance Recorder_QCAlgorithm `{EngineTypes} : QCAlgorithm Recorder := {
  set_UniverseSettings_Resolution r h :=
    {| UniverseSettings_Resolution := r; StartDate := StartDate h;
       EndDate := EndDate h; Cash := Cash h; Universes := Universes h;
       LogLines := LogLines h |};
  SetStartDate y m d h :=
    {| UniverseSettings_Resolution := UniverseSettings_Resolution h;
       StartDate := {| year := y; month := m; day := d |};
       EndDate := EndDate h; Cash := Cash h; Universes := Universes h;
       LogLines := LogLines h |};
  SetEndDate y m d h :=
    {| UniverseSettings_Resolution := UniverseSettings_Resolution h;
       StartDate := StartDate h;
       EndDate := {| year := y; month := m; day := d |};
       Cash := Cash h; Universes := Universes h; LogLines := LogLines h |};
  SetCash c h :=
    {| UniverseSettings_Resolution := UniverseSettings_Resolution h;
       StartDate := StartDate h; EndDate := EndDate h; Cash := c;
       Universes := Universes h; LogLines := LogLines h |};
  AddUniverse t n r f h :=
    {| UniverseSettings_Resolution := UniverseSettings_Resolution h;
       StartDate := StartDate h; EndDate := EndDate h; Cash := Cash h;
       Universes := Universes h ++
         [{| universe_type := t; universe_name := n;
             universe_resolution := r; universe_selector := f |}];
       LogLines := LogLines h |};
  Log line h :=
    {| UniverseSettings_Resolution := UniverseSettings_Resolution h;
       StartDate := StartDate h; EndDate := EndDate h; Cash := Cash h;
       Universes := Universes h; LogLines := LogLines h ++ [line] |}
}.

(** ** What the selection is meant to be *)

Section Specification.
Context `{EngineTypes}.

(** The selection read off the words of the specification: walking the input
    once, a datum whose amount exceeds 200000 and whose direction is [Buy]
    gives its symbol, any other datum gives nothing. *)
Inductive Selects : list UniverseDatum -> list SymbolT -> Prop :=
| Selects_nil : Selects [] []
| Selects_take d data out :
    (200000 # 1 < Amount d)%Q -> Transaction d = Buy ->
    Selects data out -> Selects (d :: data) (Symbol d :: out)
| Selects_skip d data out :
    (Amount d <= 200000 # 1)%Q \/ Transaction d <> Buy ->
    Selects data out -> Selects (d :: data) out.

(** Two data agree on everything but the representative (amounts are compared
    as numbers). *)
Definition same_but_Representative (d1 d2 : UniverseDatum) : Prop :=
  Symbol d1 = Symbol d2 /\ (Amount d1 == Amount d2)%Q /\
  Transaction d1 = Transaction d2.

(** No two qualifying data at different positions carry the same symbol. *)
Definition qualifying_symbols_distinct (data : list UniverseDatum) : Prop :=
  forall (i j : nat) (di dj : UniverseDatum),
    nth_error data i = Some di -> nth_error data j = Some dj ->
    selection_criteria di = true -> selection_criteria dj = true ->
    Symbol di = Symbol dj -> i = j.
End Specification.

(** ** A small engine to run the script on *)

Inductive SampleResolution : Set := Tick | Second | Minute | Hour | Daily.

Definition sample_format_Amount (a : Q) : string :=
  match Qden a with
  | 1%positive => NilZero.string_of_int (Z.to_int (Qnum a))
  | den => (NilZero.string_of_int (Z.to_int (Qnum a)) ++ "/" ++
            NilZero.string_of_uint (Pos.to_uint den))%string
  end.

Definition sample_engine : EngineTypes := {|
  SymbolT := string;
  SecurityChanges := list string * list string;
  Resolution := SampleResolution;
  Resolution_Daily := Daily;
  UniverseType := string;
  QuiverQuantCongressUniverse := "QuiverQuantCongressUniverse";
  format_Symbol := fun s => s;
  format_Amount := sample_format_Amount;
  format_Direction := fun d => match d with Buy => "Buy" | Sell => "Sell" end;
  ToString := fun c =>
    ("SecurityChanges: Added: " ++ String.concat "," (fst c) ++
     " Removed: " ++ String.concat "," (snd c))%string
|}.

Definition sample_datum (s r : string) (a : Z) (t : OrderDirection)
  : @UniverseDatum sample_engine :=
  {| Symbol := s : @SymbolT sample_engine; Representative := r;
     Amount := a # 1; Transaction := t |}.

Definition sample_state : @Recorder sample_engine := {|
  UniverseSettings_Resolution := Minute : @Resolution sample_engine;
  StartDate := {| year := 1998; month := 1; day := 1 |};
  EndDate := {| year := 2030; month := 1; day := 1 |};
  Cash := 0;
  Universes := [];
  LogLines := []
|}.

Example sample_log_line :
  @log_line sample_engine (sample_datum "SYM_A" "Rep1" 250000 Buy)
  = "SYM_A,Rep1,250000,Buy".
Proof. reflexivity. Qed.

(** ** The selection criteria *)

Lemma Qgtb_spec (x y : Q) : Qgtb x y = true <-> (y < x)%Q.
Proof.
  unfold Qgtb. rewrite (Qgt_alt x y).
  destruct (x ?= y)%Q; split; congruence.
Qed.

Lemma Qgtb_false (x y : Q) : Qgtb x y = false <-> (x <= y)%Q.
Proof.
  rewrite Qle_alt. unfold Qgtb.
  destruct (x ?= y)%Q; split; congruence.
Qed.

Lemma Qgtb_Qeq (x x' y : Q) : (x == x')%Q -> Qgtb x y = Qgtb x' y.
Proof. intros E. unfold Qgtb. now rewrite E. Qed.

Lemma OrderDirection_eqb_spec (a b : OrderDirection) :
  OrderDirection_eqb a b = true <-> a = b.
Proof. destruct a, b; simpl; split; congruence. Qed.

Section Criteria.
Context `{EngineTypes}.

Lemma selection_criteria_true (d : UniverseDatum) :
  selection_criteria d = true <->
  (200000 # 1 < Amount d)%Q /\ Transaction d = Buy.
Proof.
  unfold selection_criteria.
  now rewrite andb_true_iff, Qgtb_spec, OrderDirection_eqb_spec.
Qed.

Lemma selection_criteria_false (d : UniverseDatum) :
  selection_criteria d = false <->
  (Amount d <= 200000 # 1)%Q \/ Transaction d <> Buy.
Proof.
  unfold selection_criteria.
  rewrite andb_false_iff, Qgtb_false.
  destruct (Transaction d); simpl; intuition congruence.
Qed.

(** The comprehension's accumulator loop is a filter followed by a map. *)
Lemma comprehension_acc (data : list UniverseDatum) (acc : list SymbolT) :
  fold_left (fun acc d => if selection_criteria d then acc ++ [Symbol d] else acc)
            data acc
  = acc ++ map Symbol (filter selection_criteria data).
Proof.
  revert acc. induction data as [|d data IH]; intros acc; simpl.
  - now rewrite app_nil_r.
  - rewrite IH. destruct (selection_criteria d); simpl; trivial.
    now rewrite <- app_assoc.
Qed.

Lemma Selects_filter (data : list UniverseDatum) :
  Selects data (map Symbol (filter selection_criteria data)).
Proof.
  induction data as [|d data IH]; simpl.
  - constructor.
  - destruct (selection_criteria d) eqn:E.
    + apply selection_criteria_true in E as [Ha Ht]. now constructor.
    + apply selection_criteria_false in E. now constructor.
Qed.

Lemma Selects_functional (data : list UniverseDatum) (out : list SymbolT) :
  Selects data out -> out = map Symbol (filter selection_criteria data).
Proof.
  induction 1 as [|d data out Ha Ht _ IH|d data out Hn _ IH]; simpl.
  - reflexivity.
  - assert (E : selection_criteria d = true)
      by now apply selection_criteria_true.
    rewrite E. simpl. now f_equal.
  - apply selection_criteria_false in Hn. now rewrite Hn.
Qed.
End Criteria.

Section Selection.
Context `{EngineTypes} {St : Type} `{!QCAlgorithm St}.

Lemma UniverseSelection_snd (data : list UniverseDatum) (self : St) :
  snd (UniverseSelection data self)
  = map Symbol (filter selection_criteria data).
Proof. unfold UniverseSelection. simpl. now rewrite comprehension_acc. Qed.

(** C1: on every input sequence the selection is exactly the one the
    specification describes: read in input order, a datum whose Amount is
    strictly above 200000 and whose Transaction is Buy contributes its symbol,
    and a datum with Amount <= 200000 or a direction other than Buy
    contributes nothing.  In particular a symbol is selected if and only if
    some input datum with that symbol meets both conditions. *)
Theorem UniverseSelection_exact (data : list UniverseDatum) (self : St) :
  (forall out : list SymbolT,
      Selects data out <-> out = snd (UniverseSelection data self)) /\
  (forall s : SymbolT,
      In s (snd (UniverseSelection data self)) <->
      exists d, In d data /\ Symbol d = s /\
                (200000 # 1 < Amount d)%Q /\ Transaction d = Buy).
Proof.
  rewrite UniverseSelection_snd. split.
  - intros out. split.
    + apply Selects_functional.
    + intros ->. apply Selects_filter.
  - intros s. rewrite in_map_iff. split.
    + intros (d & Hs & Hd). apply filter_In in Hd as [Hin Hc].
      apply selection_criteria_true in Hc. now exists d.
    + intros (d & Hin & Hs & Hc). exists d. split; trivial.
      apply filter_In. split; trivial. now apply selection_criteria_true.
Qed.

(** C4: on the three records (SYM_A, Rep1, 250000, buy),
    (SYM_B, Rep2, 150000, buy), (SYM_C, Rep3, 300000, sell) the selection is
    the one-element list [SYM_A]. *)
Theorem UniverseSelection_example (SYM_A SYM_B SYM_C : SymbolT) (self : St) :
  snd (UniverseSelection
         [ {| Symbol := SYM_A; Representative := "Rep1";
              Amount := 250000 # 1; Transaction := Buy |};
           {| Symbol := SYM_B; Representative := "Rep2";
              Amount := 150000 # 1; Transaction := Buy |};
           {| Symbol := SYM_C; Representative := "Rep3";
              Amount := 300000 # 1; Transaction := Sell |} ]
         self)
  = [SYM_A].
Proof. reflexivity. Qed.

(** C5: on the empty input the callback returns the empty selection and
    leaves the engine as it found it; the embedded function is total, its
    result type has no exceptional outcome. *)
Theorem UniverseSelection_empty (self : St) :
  UniverseSelection [] self = (self, []).
Proof. reflexivity. Qed.
End Selection.

(** ** Duplicates and order *)

Section Positions.
Context `{EngineTypes}.

Lemma selected_position (data : list UniverseDatum) (s : SymbolT) :
  In s (map Symbol (filter selection_criteria data)) ->
  exists j d, nth_error data j = Some d /\
              selection_criteria d = true /\ Symbol d = s.
Proof.
  rewrite in_map_iff. intros (d & Hs & Hd).
  apply filter_In in Hd as [Hin Hc].
  apply In_nth_error in Hin as [j Hj]. now exists j, d.
Qed.

Lemma qualifying_symbols_distinct_tail (d : UniverseDatum) data :
  qualifying_symbols_distinct (d :: data) -> qualifying_symbols_distinct data.
Proof.
  intros Hd i j di dj Hi Hj Hci Hcj Hs.
  assert (E : S i = S j) by (apply (Hd (S i) (S j) di dj); assumption).
  congruence.
Qed.

Lemma filter_NoDup (data : list UniverseDatum) :
  qualifying_symbols_distinct data ->
  NoDup (map Symbol (filter selection_criteria data)).
Proof.
  induction data as [|d data IH]; intros Hd; simpl.
  - constructor.
  - pose proof (qualifying_symbols_distinct_tail _ _ Hd) as Ht.
    destruct (selection_criteria d) eqn:Hc; simpl; auto.
    constructor; auto.
    intros Hin. apply selected_position in Hin as (j & dj & Hj & Hcj & Hs).
    assert (E : 0%nat = S j) by (apply (Hd 0%nat (S j) d dj); auto).
    discriminate.
Qed.

(** Positions of the input the selection is read from: they increase, each
    holds a qualifying datum with the matching symbol, none is left out. *)
Lemma filter_positions (data : list UniverseDatum) :
  exists idx : list nat,
    StronglySorted Nat.lt idx /\
    Forall2 (fun i s => exists d, nth_error data i = Some d /\
                                  selection_criteria d = true /\ Symbol d = s)
            idx (map Symbol (filter selection_criteria data)) /\
    (forall i d, nth_error data i = Some d ->
                 selection_criteria d = true -> In i idx).
Proof.
  induction data as [|d data (idx & Hsorted & Hread & Hall)].
  - exists []. repeat split; try constructor.
    intros [|i] d; discriminate.
  - assert (Hs' : StronglySorted Nat.lt (map S idx)).
    { clear Hread Hall. induction Hsorted as [|i idx _ IH Hlt]; simpl.
      - constructor.
      - constructor; trivial. rewrite Forall_map.
        eapply Forall_impl; [|exact Hlt]. simpl. intros; lia. }
    assert (Hr' : Forall2
              (fun i s => exists d', nth_error (d :: data) i = Some d' /\
                                     selection_criteria d' = true /\
                                     Symbol d' = s)
              (map S idx) (map Symbol (filter selection_criteria data))).
    { clear Hs' Hsorted Hall.
      induction Hread as [|i s idx out Hi _ IH]; simpl; constructor; trivial. }
    simpl. destruct (selection_criteria d) eqn:Hc.
    + exists (0%nat :: map S idx). repeat split.
      * constructor; trivial. rewrite Forall_map.
        apply Forall_forall. intros; lia.
      * simpl. constructor; trivial. now exists d.
      * intros [|i] d' Hi Hc'; simpl; [now left|right].
        apply in_map. now apply (Hall i d').
    + exists (map S idx). repeat split; trivial.
      intros [|i] d' Hi Hc'; simpl in Hi.
      * congruence.
      * apply in_map. now apply (Hall i d').
Qed.
End Positions.

Section Order.
Context `{EngineTypes} {St : Type} `{!QCAlgorithm St}.

(** C2, as amended: the selection is a list with one entry per qualifying
    datum, so it is free of duplicate symbols whenever no two qualifying data
    at different positions of the input carry the same symbol. *)
Theorem UniverseSelection_NoDup (data : list UniverseDatum) (self : St) :
  qualifying_symbols_distinct data ->
  NoDup (snd (UniverseSelection data self)).
Proof. rewrite UniverseSelection_snd. apply filter_NoDup. Qed.

(** C3: the selection follows the input order.  It is read off the input at
    strictly increasing positions: the k-th selected symbol is the symbol of
    the qualifying datum at the k-th of these positions, and every position
    holding a qualifying datum is among them. *)
Theorem UniverseSelection_order (data : list UniverseDatum) (self : St) :
  exists idx : list nat,
    StronglySorted Nat.lt idx /\
    Forall2 (fun i s => exists d, nth_error data i = Some d /\
                                  selection_criteria d = true /\ Symbol d = s)
            idx (snd (UniverseSelection data self)) /\
    (forall i d, nth_error data i = Some d ->
                 selection_criteria d = true -> In i idx).
Proof. rewrite UniverseSelection_snd. apply filter_positions. Qed.
End Order.

(** C2, as stated, fails: two records of one symbol that both qualify give
    that symbol twice. *)
Lemma UniverseSelection_duplicates :
  snd (UniverseSelection
         [sample_datum "SYM_A" "Rep1" 250000 Buy;
          sample_datum "SYM_A" "Rep2" 300000 Buy] sample_state)
  = ["SYM_A"; "SYM_A"] /\
  ~ NoDup (snd (UniverseSelection
                  [sample_datum "SYM_A" "Rep1" 250000 Buy;
                   sample_datum "SYM_A" "Rep2" 300000 Buy] sample_state)).
Proof.
  split; [reflexivity|].
  intros Hn. apply NoDup_cons_iff in Hn as [Hn _].
  apply Hn. now left.
Qed.

Lemma UniverseSelection_NoDup_witness :
  qualifying_symbols_distinct
    [sample_datum "SYM_A" "Rep1" 250000 Buy;
     sample_datum "SYM_B" "Rep2" 300000 Buy;
     sample_datum "SYM_A" "Rep3" 150000 Buy] /\
  NoDup (snd (UniverseSelection
                [sample_datum "SYM_A" "Rep1" 250000 Buy;
                 sample_datum "SYM_B" "Rep2" 300000 Buy;
                 sample_datum "SYM_A" "Rep3" 150000 Buy] sample_state)).
Proof.
  assert (Hd : qualifying_symbols_distinct
                 [sample_datum "SYM_A" "Rep1" 250000 Buy;
                  sample_datum "SYM_B" "Rep2" 300000 Buy;
                  sample_datum "SYM_A" "Rep3" 150000 Buy]).
  { intros i j di dj Hi Hj Hci Hcj Hs.
    destruct i as [|[|[|i]]]; simpl in Hi; try (destruct i; discriminate);
      injection Hi as <-;
      destruct j as [|[|[|j]]]; simpl in Hj; try (destruct j; discriminate);
      injection Hj as <-;
      try reflexivity; try discriminate. }
  split; [exact Hd|].
  apply (UniverseSelection_NoDup _ sample_state Hd).
Defined.

(** ** Configuration and logging, seen through the recording engine *)

Section Recording.
Context `{EngineTypes}.

Lemma Log_loop (lines : UniverseDatum -> string) (data : list UniverseDatum)
      (h : Recorder) :
  fold_left (fun self datum => Log (lines datum) self) data h
  = {| UniverseSettings_Resolution := UniverseSettings_Resolution h;
       StartDate := StartDate h; EndDate := EndDate h; Cash := Cash h;
       Universes := Universes h;
       LogLines := LogLines h ++ map lines data |}.
Proof.
  revert h. induction data as [|d data IH]; intros h; simpl.
  - rewrite app_nil_r. now destruct h.
  - rewrite IH. simpl. now rewrite <- app_assoc.
Qed.

(** C6: whatever the engine held before, after [Initialize] the universe
    resolution is Daily, the start date 2022-02-14, the end date 2022-02-18
    and the cash 100000; exactly one universe has been registered, after
    those already there; nothing has been logged. *)
Theorem Initialize_configuration (h : Recorder) :
  Initialize h
  = {| UniverseSettings_Resolution := Resolution_Daily;
       StartDate := {| year := 2022; month := 2; day := 14 |};
       EndDate := {| year := 2022; month := 2; day := 18 |};
       Cash := 100000;
       Universes := Universes h ++
         [{| universe_type := QuiverQuantCongressUniverse;
             universe_name := "QuiverQuantCongresssUniverse";
             universe_resolution := Resolution_Daily;
             universe_selector := self_UniverseSelection |}];
       LogLines := LogLines h |} /\
  List.length (Universes (Initialize h)) = S (List.length (Universes h)).
Proof.
  split; [reflexivity|].
  simpl. rewrite length_app. simpl. lia.
Qed.

(** C7: on an input of n records the callback logs exactly n lines, one per
    record and in input order, each made of the record's symbol,
    representative, amount and direction separated by commas; and the
    selection it returns is the same under every implementation of the
    engine, hence of the log sink, and from every engine state. *)
Theorem UniverseSelection_logging (data : list UniverseDatum) (h : Recorder) :
  LogLines (fst (UniverseSelection data h))
  = LogLines h ++
    map (fun d => (format_Symbol (Symbol d) ++ "," ++ Representative d ++ "," ++
                   format_Amount (Amount d) ++ "," ++
                   format_Direction (Transaction d))%string) data /\
  List.length (LogLines (fst (UniverseSelection data h)))
  = (List.length (LogLines h) + List.length data)%nat /\
  (forall (St : Type) (engine : QCAlgorithm St) (self : St),
      snd (UniverseSelection data self) = snd (UniverseSelection data h)).
Proof.
  assert (E : fst (UniverseSelection data h)
              = fold_left (fun self datum => Log (log_line datum) self) data h)
    by reflexivity.
  rewrite E, Log_loop. cbn [LogLines]. split; [reflexivity | split].
  - now rewrite length_app, length_map.
  - intros St engine self. now rewrite !UniverseSelection_snd.
Qed.

(** C8: [OnSecuritiesChanged] logs exactly one line, the string form of the
    change set, and leaves every other part of the engine state as it was;
    the method yields nothing but the updated engine. *)
Theorem OnSecuritiesChanged_frame (changes : SecurityChanges) (h : Recorder) :
  OnSecuritiesChanged changes h
  = {| UniverseSettings_Resolution := UniverseSettings_Resolution h;
       StartDate := StartDate h; EndDate := EndDate h; Cash := Cash h;
       Universes := Universes h;
       LogLines := LogLines h ++ [ToString changes] |}.
Proof. reflexivity. Qed.
End Recording.

(** ** Statelessness *)

Section Stateless.
Context `{EngineTypes} {St : Type} `{!QCAlgorithm St}.

(** C9: the selection is a function of the input alone.  Two calls on the
    same input return the same selection from any two engine states, in
    particular when any sequence of callback invocations runs before the
    first call and any other between the two; and a preceding
    [OnSecuritiesChanged] does not alter what a call returns. *)
Theorem callbacks_stateless (data : list UniverseDatum) :
  (forall self self' : St,
      snd (UniverseSelection data self) = snd (UniverseSelection data self')) /\
  (forall (before between : list Invocation) (self : St),
      let first := UniverseSelection data (run before self) in
      let second := UniverseSelection data (run between (fst first)) in
      snd first = snd second) /\
  (forall (changes : SecurityChanges) (self : St),
      snd (UniverseSelection data (OnSecuritiesChanged changes self))
      = snd (UniverseSelection data self)).
Proof.
  repeat split; intros; now rewrite !UniverseSelection_snd.
Qed.

Lemma filter_same_but_Representative (data data' : list UniverseDatum) :
  Forall2 same_but_Representative data data' ->
  map Symbol (filter selection_criteria data)
  = map Symbol (filter selection_criteria data').
Proof.
  induction 1 as [|d d' data data' (Hs & Ha & Ht) _ IH]; simpl; trivial.
  assert (E : selection_criteria d = selection_criteria d').
  { unfold selection_criteria. now rewrite (Qgtb_Qeq _ _ _ Ha), Ht. }
  rewrite <- E. destruct (selection_criteria d); simpl; congruence.
Qed.

(** C10: the selection does not read the Representative field.  Two inputs
    of the same length whose records agree, position by position, on Symbol,
    Amount and Transaction give the same selection, whatever their
    representatives and whatever the engine states. *)
Theorem UniverseSelection_ignores_Representative
        (data data' : list UniverseDatum) (self self' : St) :
  Forall2 same_but_Representative data data' ->
  snd (UniverseSelection data self) = snd (UniverseSelection data' self').
Proof.
  intros Hagree. rewrite !UniverseSelection_snd.
  now apply filter_same_but_Representative.
Qed.
End Stateless.

Lemma UniverseSelection_ignores_Representative_witness :
  Forall2 same_but_Representative
    [sample_datum "SYM_A" "Rep1" 250000 Buy;
     sample_datum "SYM_B" "Rep2" 150000 Buy]
    [sample_datum "SYM_A" "Someone" 250000 Buy;
     sample_datum "SYM_B" "Else" 150000 Buy] /\
  snd (UniverseSelection
         [sample_datum "SYM_A" "Rep1" 250000 Buy;
          sample_datum "SYM_B" "Rep2" 150000 Buy] sample_state)
  = snd (UniverseSelection
           [sample_datum "SYM_A" "Someone" 250000 Buy;
            sample_datum "SYM_B" "Else" 150000 Buy] sample_state).
Proof.
  assert (Hagree : Forall2 same_but_Representative
    [sample_datum "SYM_A" "Rep1" 250000 Buy;
     sample_datum "SYM_B" "Rep2" 150000 Buy]
    [sample_datum "SYM_A" "Someone" 250000 Buy;
     sample_datum "SYM_B" "Else" 150000 Buy]).
  { repeat constructor. }
  split; [exact Hagree|].
  apply (UniverseSelection_ignores_Representative _ _ sample_state sample_state
           Hagree).
Defined.

(** ** Further properties of the selection *)

Section Batches.
Context `{EngineTypes} {St : Type} `{!QCAlgorithm St}.

(** X1: one call on a concatenated input does what two successive calls on
    its parts do: the engine ends in the state the second call reaches from
    the state left by the first, and the selection is the first selection
    followed by the second. *)
Theorem UniverseSelection_app (data1 data2 : list UniverseDatum) (self : St) :
  UniverseSelection (data1 ++ data2) self
  = (fst (UniverseSelection data2 (fst (UniverseSelection data1 self))),
     snd (UniverseSelection data1 self) ++
     snd (UniverseSelection data2 (fst (UniverseSelection data1 self)))).
Proof.
  rewrite !UniverseSelection_snd. unfold UniverseSelection. cbn [fst].
  now rewrite fold_left_app, comprehension_acc, filter_app, map_app.
Qed.

(** X2: the selection never has more entries than the input has records, and
    it has as many exactly when every record qualifies, in which case it is
    the list of all input symbols. *)
Theorem UniverseSelection_length (data : list UniverseDatum) (self : St) :
  (List.length (snd (UniverseSelection data self)) <= List.length data)%nat /\
  (List.length (snd (UniverseSelection data self)) = List.length data <->
   Forall (fun d => (200000 # 1 < Amount d)%Q /\ Transaction d = Buy) data) /\
  (List.length (snd (UniverseSelection data self)) = List.length data ->
   snd (UniverseSelection data self) = map Symbol data).
Proof.
  rewrite UniverseSelection_snd, length_map.
  assert (Hall : List.length (filter selection_criteria data) = List.length data
                 -> filter selection_criteria data = data).
  { intros E. now apply forallb_filter_id, filter_length_forallb. }
  split; [apply filter_length_le | split].
  - split.
    + intros E. apply Hall in E. rewrite <- E.
      apply Forall_forall. intros d Hd. apply filter_In in Hd as [_ Hc].
      now apply selection_criteria_true.
    + intros Hq. f_equal. apply forallb_filter_id, forallb_forall.
      intros d Hd. apply selection_criteria_true.
      now apply (proj1 (Forall_forall _ _) Hq).
  - intros E. now rewrite (Hall E).
Qed.

(** X3: the selection is empty exactly when no record qualifies, that is
    when every record has an amount of at most 200000 (the threshold itself
    included) or a direction other than Buy. *)
Theorem UniverseSelection_nil_iff (data : list UniverseDatum) (self : St) :
  snd (UniverseSelection data self) = [] <->
  Forall (fun d => (Amount d <= 200000 # 1)%Q \/ Transaction d <> Buy) data.
Proof.
  rewrite UniverseSelection_snd. induction data as [|d data IH]; simpl.
  - split; trivial.
  - destruct (selection_criteria d) eqn:Hc; simpl.
    + split; [discriminate|]. intros Hf. inversion Hf as [|? ? Hd _]; subst.
      apply selection_criteria_false in Hd. congruence.
    + rewrite IH. apply selection_criteria_false in Hc. split.
      * now constructor.
      * intros Hf. now inversion Hf.
Qed.

(** X4: a record that does not qualify can be dropped from, or inserted
    into, any place of the input without changing the selection. *)
Theorem UniverseSelection_skip (data1 data2 : list UniverseDatum)
        (d : UniverseDatum) (self : St) :
  (Amount d <= 200000 # 1)%Q \/ Transaction d <> Buy ->
  snd (UniverseSelection (data1 ++ d :: data2) self)
  = snd (UniverseSelection (data1 ++ data2) self).
Proof.
  intros Hd. apply selection_criteria_false in Hd.
  rewrite !UniverseSelection_snd, !filter_app. simpl. now rewrite Hd.
Qed.

Lemma filter_Permutation (data data' : list UniverseDatum) :
  Permutation data data' ->
  Permutation (filter selection_criteria data) (filter selection_criteria data').
Proof.
  induction 1 as [|d l l' _ IH|d d' l|l l' l'' _ IH1 _ IH2]; simpl.
  - constructor.
  - destruct (selection_criteria d); auto.
  - destruct (selection_criteria d), (selection_criteria d');
      try apply Permutation_refl. apply perm_swap.
  - now transitivity (filter selection_criteria l').
Qed.

(** X5: reordering the input only reorders the selection: the selections of
    two inputs that are permutations of each other are permutations of each
    other, each symbol occurring equally often in both. *)
Theorem UniverseSelection_Permutation (data data' : list UniverseDatum)
        (self self' : St) :
  Permutation data data' ->
  Permutation (snd (UniverseSelection data self))
              (snd (UniverseSelection data' self')).
Proof.
  intros Hp. rewrite !UniverseSelection_snd.
  now apply Permutation_map, filter_Permutation.
Qed.
End Batches.

Lemma UniverseSelection_skip_witness :
  ((Amount (sample_datum "SYM_B" "Rep2" 200000 Buy) <= 200000 # 1)%Q \/
   Transaction (sample_datum "SYM_B" "Rep2" 200000 Buy) <> Buy) /\
  snd (UniverseSelection
         ([sample_datum "SYM_A" "Rep1" 250000 Buy] ++
          sample_datum "SYM_B" "Rep2" 200000 Buy ::
          [sample_datum "SYM_C" "Rep3" 300000 Buy]) sample_state)
  = snd (UniverseSelection
           ([sample_datum "SYM_A" "Rep1" 250000 Buy] ++
            [sample_datum "SYM_C" "Rep3" 300000 Buy]) sample_state).
Proof.
  assert (Hd : (Amount (sample_datum "SYM_B" "Rep2" 200000 Buy) <= 200000 # 1)%Q
               \/ Transaction (sample_datum "SYM_B" "Rep2" 200000 Buy) <> Buy).
  { left. simpl. apply Qle_refl. }
  split; [exact Hd|].
  apply (UniverseSelection_skip _ _ _ sample_state Hd).
Defined.

Lemma UniverseSelection_Permutation_witness :
  Permutation [sample_datum "SYM_A" "Rep1" 250000 Buy;
               sample_datum "SYM_B" "Rep2" 300000 Buy]
              [sample_datum "SYM_B" "Rep2" 300000 Buy;
               sample_datum "SYM_A" "Rep1" 250000 Buy] /\
  Permutation
    (snd (UniverseSelection [sample_datum "SYM_A" "Rep1" 250000 Buy;
                             sample_datum "SYM_B" "Rep2" 300000 Buy]
                            sample_state))
    (snd (UniverseSelection [sample_datum "SYM_B" "Rep2" 300000 Buy;
                             sample_datum "SYM_A" "Rep1" 250000 Buy]
                            sample_state)).
Proof.
  assert (Hp : Permutation [sample_datum "SYM_A" "Rep1" 250000 Buy;
                            sample_datum "SYM_B" "Rep2" 300000 Buy]
                           [sample_datum "SYM_B" "Rep2" 300000 Buy;
                            sample_datum "SYM_A" "Rep1" 250000 Buy]).
  { apply perm_swap. }
  split; [exact Hp|].
  apply (UniverseSelection_Permutation _ _ sample_state sample_state Hp).
Defined.

(** ** Callback traces on the recording engine *)

Section Traces.
Context `{EngineTypes}.

Lemma UniverseSelection_fst_Recorder (data : list UniverseDatum) (h : Recorder) :
  fst (UniverseSelection data h)
  = {| UniverseSettings_Resolution := UniverseSettings_Resolution h;
       StartDate := StartDate h; EndDate := EndDate h; Cash := Cash h;
       Universes := Universes h;
       LogLines := LogLines h ++ map log_line data |}.
Proof. unfold UniverseSelection. cbn [fst]. apply Log_loop. Qed.

Lemma run_Recorder (calls : list Invocation) (h : Recorder) :
  run calls h
  = {| UniverseSettings_Resolution := UniverseSettings_Resolution h;
       StartDate := StartDate h; EndDate := EndDate h; Cash := Cash h;
       Universes := Universes h;
       LogLines := LogLines h ++
         flat_map (fun i => match i with
                            | Call_UniverseSelection data => map log_line data
                            | Call_OnSecuritiesChanged changes => [ToString changes]
                            end) calls |}.
Proof.
  unfold run. revert h. induction calls as [|i calls IH]; intros h; simpl.
  - rewrite app_nil_r. now destruct h.
  - rewrite IH. destruct i as [data|changes]; cbn [invoke].
    + rewrite UniverseSelection_fst_Recorder. simpl. now rewrite <- app_assoc.
    + simpl. now rewrite <- app_assoc.
Qed.

(** X6: every selected symbol can be traced in the log: the record it comes
    from is in the input, qualifies, and its line is among the lines the same
    call has logged. *)
Theorem UniverseSelection_selected_logged (data : list UniverseDatum)
        (h : Recorder) (s : SymbolT) :
  In s (snd (UniverseSelection data h)) ->
  exists d, In d data /\ Symbol d = s /\ selection_criteria d = true /\
            In (log_line d) (LogLines (fst (UniverseSelection data h))).
Proof.
  rewrite UniverseSelection_snd, UniverseSelection_fst_Recorder, in_map_iff.
  intros (d & Hs & Hd). apply filter_In in Hd as [Hin Hc].
  exists d. repeat split; trivial.
  simpl. apply in_or_app. right. now apply in_map.
Qed.

(** X7: however the engine interleaves the two callbacks, they never touch
    the configuration or the registered universes; all they do is extend the
    log, by one line per record for a selection call and by one line for a
    change notification, in call order. *)
Theorem callbacks_only_log (calls : list Invocation) (h : Recorder) :
  UniverseSettings_Resolution (run calls h) = UniverseSettings_Resolution h /\
  StartDate (run calls h) = StartDate h /\
  EndDate (run calls h) = EndDate h /\
  Cash (run calls h) = Cash h /\
  Universes (run calls h) = Universes h /\
  LogLines (run calls h)
  = LogLines h ++
    flat_map (fun i => match i with
                       | Call_UniverseSelection data => map log_line data
                       | Call_OnSecuritiesChanged changes => [ToString changes]
                       end) calls.
Proof. rewrite run_Recorder. now repeat split. Qed.

(** X8: the settings made by [Initialize] survive every later callback:
    after initialisation followed by any sequence of callback invocations the
    resolution is still Daily, the dates 2022-02-14 and 2022-02-18, the cash
    100000, and still exactly one universe has been added to those present
    at the start. *)
Theorem Initialize_then_callbacks (calls : list Invocation) (h : Recorder) :
  UniverseSettings_Resolution (run calls (Initialize h)) = Resolution_Daily /\
  StartDate (run calls (Initialize h))
  = {| year := 2022; month := 2; day := 14 |} /\
  EndDate (run calls (Initialize h))
  = {| year := 2022; month := 2; day := 18 |} /\
  Cash (run calls (Initialize h)) = 100000%Z /\
  Universes (run calls (Initialize h))
  = Universes h ++
    [{| universe_type := QuiverQuantCongressUniverse;
        universe_name := "QuiverQuantCongresssUniverse";
        universe_resolution := Resolution_Daily;
        universe_selector := self_UniverseSelection |}].
Proof. rewrite run_Recorder. now repeat split. Qed.
End Traces.

Lemma UniverseSelection_selected_logged_witness :
  In ("SYM_A" : @SymbolT sample_engine)
     (snd (UniverseSelection
             [sample_datum "SYM_B" "Rep2" 150000 Buy;
              sample_datum "SYM_A" "Rep1" 250000 Buy] sample_state)) /\
  exists d, In d [sample_datum "SYM_B" "Rep2" 150000 Buy;
                  sample_datum "SYM_A" "Rep1" 250000 Buy] /\
            Symbol d = "SYM_A" /\ selection_criteria d = true /\
            In (log_line d)
               (LogLines (fst (UniverseSelection
                  [sample_datum "SYM_B" "Rep2" 150000 Buy;
                   sample_datum "SYM_A" "Rep1" 250000 Buy] sample_state))).
Proof.
  assert (Hin : In ("SYM_A" : @SymbolT sample_engine)
     (snd (UniverseSelection
             [sample_datum "SYM_B" "Rep2" 150000 Buy;
              sample_datum "SYM_A" "Rep1" 250000 Buy] sample_state))).
  { simpl. now left. }
  split; [exact Hin|].
  apply (UniverseSelection_selected_logged _ sample_state _ Hin).
Defined.
